(** * Terminal panel of the playground client

    Shallow embedding of
    [client/src/components/Panels/Main/Terminal/Terminal.tsx].

    The component owns three pieces of state: the panel [height] and the
    [isClosed] flag (React state), and the command line typed so far
    ([command], a ref).  Everything it does to the outside world goes
    through the xterm instance and a few [PgTerminal] helpers; those calls
    are recorded, in order, in a trace of [Effect]s.

    Strings are sequences of code units; a character of [string] stands for
    one code unit in the Latin-1 range.  Heights are pixels, modelled in
    [Z]. *)

From Stdlib Require Import ZArith List String Ascii Bool Lia.
Import ListNotations.

Open Scope string_scope.
Open Scope Z_scope.

(** ** String primitives of the host language *)

Module JS.

(** WhiteSpace and LineTerminator code units below 256: TAB, LF, VT, FF,
    CR, SP and NBSP. *)
Definition isWhiteSpace (c : ascii) : bool :=
  let n := nat_of_ascii c in
  (n =? 9)%nat || (n =? 10)%nat || (n =? 11)%nat || (n =? 12)%nat
  || (n =? 13)%nat || (n =? 32)%nat || (n =? 160)%nat.

Fixpoint trimStart (s : string) : string :=
  match s with
  | EmptyString => EmptyString
  | String c s' => if isWhiteSpace c then trimStart s' else s
  end.

Fixpoint trimEnd (s : string) : string :=
  match s with
  | EmptyString => EmptyString
  | String c s' =>
      match trimEnd s' with
      | EmptyString =>
          if isWhiteSpace c then EmptyString else String c EmptyString
      | r => String c r
      end
  end.

(** [String.prototype.trim] *)
Definition trim (s : string) : string := trimEnd (trimStart s).

(** [String.prototype.length] *)
Definition length (s : string) : Z := Z.of_nat (String.length s).

(** [String.prototype.substring(start, end)]: both indices are clamped to
    [0 .. length] and swapped when [start > end]. *)
Definition substring (s : string) (start stop : Z) : string :=
  let len := length s in
  let finalStart := Z.min (Z.max start 0) len in
  let finalEnd := Z.min (Z.max stop 0) len in
  let from := Z.min finalStart finalEnd in
  let to := Z.max finalStart finalEnd in
  String.substring (Z.to_nat from) (Z.to_nat (to - from)) s.

(** Scan of [split] for a non-empty separator.  [skip] counts the code
    units of a separator occurrence still to be stepped over, [cur] is the
    piece accumulated since the last occurrence. *)
Fixpoint split_go (sep : string) (skip : nat) (cur s : string)
  : list string :=
  match skip with
  | S k =>
      match s with
      | EmptyString => [cur]
      | String _ s' => split_go sep k cur s'
      end
  | O =>
      match s with
      | EmptyString => [cur]
      | String c s' =>
          if String.prefix sep s
          then cur :: split_go sep (Nat.pred (String.length sep)) EmptyString s'
          else split_go sep O (cur ++ String c EmptyString) s'
      end
  end.

Fixpoint units (s : string) : list string :=
  match s with
  | EmptyString => []
  | String c s' => String c EmptyString :: units s'
  end.

(** [String.prototype.split(separator)] with a string separator: the
    pieces between the successive, non-overlapping occurrences of the
    separator, found left to right; an empty separator splits into code
    units. *)
Definition split (s sep : string) : list string :=
  match sep with
  | EmptyString => units s
  | _ => split_go sep O EmptyString s
  end.

(** Truthiness of a string: only the empty string is falsy. *)
Definition truthy (s : string) : bool :=
  match s with
  | EmptyString => false
  | _ => true
  end.

(** [String.prototype.includes]: [sep] occurs somewhere in [s]. *)
Fixpoint includes (s sep : string) : bool :=
  String.prefix sep s
  || match s with
     | EmptyString => false
     | String _ s' => includes s' sep
     end.

(** Specification-side notions, used to state what [trim] and [split]
    compute: a string made of white space only, and the text that follows
    the first occurrence of a marker. *)
Fixpoint allWhiteSpace (s : string) : bool :=
  match s with
  | EmptyString => true
  | String c s' => isWhiteSpace c && allWhiteSpace s'
  end.

Fixpoint drop (n : nat) (s : string) : string :=
  match n, s with
  | O, _ => s
  | S _, EmptyString => EmptyString
  | S k, String _ s' => drop k s'
  end.

Fixpoint afterFirst (marker s : string) : option string :=
  if String.prefix marker s then Some (drop (String.length marker) s)
  else match s with
       | EmptyString => None
       | String _ s' => afterFirst marker s'
       end.

(** A string that starts, or ends, with a white space code unit. *)
Definition startsBlank (s : string) : bool :=
  match s with
  | EmptyString => false
  | String c _ => isWhiteSpace c
  end.

Fixpoint endsBlank (s : string) : bool :=
  match s with
  | EmptyString => false
  | String c EmptyString => isWhiteSpace c
  | String _ s' => endsBlank s'
  end.

End JS.

(** ** Data *)

(** Calls made on the xterm instance, on the [PgTerminal] helpers that act
    on it, and on the native event, in the order they happen. *)
Inductive Effect : Type :=
| XtermWrite (text : string)        (* xterm.write(text) *)
| XtermWriteln (text : string)      (* xterm.writeln(text) *)
| XtermClear                        (* xterm.clear() *)
| XtermFocus                        (* xterm.focus() *)
| XtermScrollToBottom               (* xterm.scrollToBottom() *)
| RemoveLastChar                    (* PgTerminal.removeLastChar(xterm) *)
| ClearCurrentLine                  (* PgTerminal.clearCurrentLine(xterm) *)
| ParseCommand (cmd : string)       (* PgTerminal.parseCommand(cmd, ...) *)
| PreventDefault.                   (* e.preventDefault() *)

Record State : Type := mkState {
  height : Z;                 (* useState(PgTerminal.DEFAULT_HEIGHT) *)
  isClosed : bool;            (* useState(false) *)
  maxButtonDown : bool;       (* class "down" on the maximize button *)
  command : string;           (* command.current *)
  effects : list Effect
}.

(** Argument of the xterm [onKey] listener. *)
Record KeyEvent : Type := mkKeyEvent {
  key : string;               (* key *)
  domEvent_key : string       (* domEvent.key *)
}.

(** Argument of the document [keydown] listener, with the two facts the
    handler asks of its environment. *)
Record KeyboardEvent : Type := mkKeyboardEvent {
  e_key : string;             (* e.key *)
  ctrlOrCmd : bool;           (* PgCommon.isKeyCtrlOrCmd(e) *)
  terminalFocused : bool      (* PgTerminal.isTerminalFocused() *)
}.

Definition LF : string := String (ascii_of_nat 10) EmptyString.
Definition FF : string := String (ascii_of_nat 12) EmptyString.
Definition CR : string := String (ascii_of_nat 13) EmptyString.

Definition emit (e : Effect) (st : State) : State :=
  mkState (height st) (isClosed st) (maxButtonDown st) (command st)
          (effects st ++ [e]).

Definition setHeight (f : Z -> Z) (st : State) : State :=
  mkState (f (height st)) (isClosed st) (maxButtonDown st) (command st)
          (effects st).

Definition setIsClosed (f : bool -> bool) (st : State) : State :=
  mkState (height st) (f (isClosed st)) (maxButtonDown st) (command st)
          (effects st).

Definition setMaxButtonDown (b : bool) (st : State) : State :=
  mkState (height st) (isClosed st) b (command st) (effects st).

Definition setCommand (s : string) (st : State) : State :=
  mkState (height st) (isClosed st) (maxButtonDown st) s (effects st).

(** The text handed to the emulator by [xterm.write] and [xterm.writeln]. *)
Definition written (e : Effect) : string :=
  match e with
  | XtermWrite t => t
  | XtermWriteln t => t ++ LF
  | _ => EmptyString
  end.

(** ** A concrete environment

    [PgTerminal] is imported from [utils/pg], which is outside the file
    embedded here; the component is parametrised by it below.  This module
    fixes one environment to evaluate the component on. *)

Module Sample.

Definition DEFAULT_HEIGHT : Z := 200.
Definition MIN_HEIGHT : Z := 30.
Definition MAX_HEIGHT : Z := 500.
Definition PROMPT : string := "$ ".

Definition ESC : string := String (ascii_of_nat 27) EmptyString.
Definition italic (s : string) : string := ESC ++ "[3m" ++ s ++ ESC ++ "[0m".
Definition colorText (s : string) : string := s.

Definition isCharValid (k : string) : bool :=
  match k with
  | String c EmptyString =>
      let n := nat_of_ascii c in ((32 <=? n)%nat && (n <=? 126)%nat)%bool
  | _ => false
  end.

Definition parseCommand (cmd : string) : bool :=
  String.eqb (JS.trim cmd) "help" || String.eqb (JS.trim cmd) "build".

Definition upper (c : ascii) : ascii :=
  let n := nat_of_ascii c in
  if ((97 <=? n)%nat && (n <=? 122)%nat)%bool then ascii_of_nat (n - 32) else c.

Fixpoint toUpperCase (s : string) : string :=
  match s with
  | EmptyString => EmptyString
  | String c s' => String (upper c) (toUpperCase s')
  end.

(** A state with the given height, flag and buffer, and no effect yet. *)
Definition state (h : Z) (closed : bool) (cmd : string) : State :=
  mkState h closed false cmd [].

Definition press (c : string) : KeyEvent := mkKeyEvent c c.
Definition enter : KeyEvent := mkKeyEvent CR "Enter".
Definition erase : KeyEvent :=
  mkKeyEvent (String (ascii_of_nat 127) EmptyString) "Backspace".

End Sample.

(** ** The component *)

Section Terminal.

(** Constants and helpers of [PgTerminal]. *)
Variables DEFAULT_HEIGHT MIN_HEIGHT MAX_HEIGHT : Z.
Variable PROMPT : string.
Variable italic : string -> string.
Variable colorText : string -> string.
Variable isCharValid : string -> bool.
(** The verdict of [PgTerminal.parseCommand]. *)
Variable parseCommand : string -> bool.
(** [String.prototype.toUpperCase]. *)
Variable toUpperCase : string -> string.

Definition initialState : State :=
  mkState DEFAULT_HEIGHT false false EmptyString [].

Definition handleResizeStop (d_height : Z) (st : State) : State :=
  setHeight
    (fun h =>
       let result := h + d_height in
       if result >? MAX_HEIGHT then MAX_HEIGHT else result)
    st.

Definition clear (st : State) : State := emit XtermClear st.

Definition toggleMaximize (st : State) : State :=
  if height st =? MAX_HEIGHT
  then setHeight (fun _ => DEFAULT_HEIGHT) (setMaxButtonDown false st)
  else setHeight (fun _ => MAX_HEIGHT) (setMaxButtonDown true st).

Definition toggleClose (st : State) : State :=
  setHeight (fun h => if h =? 0 then DEFAULT_HEIGHT else 0)
            (setIsClosed negb st).

Definition notFound (cmd : string) : string :=
  "Command '" ++ italic (JS.trim cmd) ++ "' not found." ++ LF ++ LF ++ PROMPT.

Definition handleKey (ev : KeyEvent) (st : State) : State :=
  if String.eqb (domEvent_key ev) "Enter" then
    let st1 := emit (XtermWriteln EmptyString) st in
    let isValidCommand := parseCommand (command st1) in
    let st2 := emit (ParseCommand (command st1)) st1 in
    let st3 :=
      if negb isValidCommand then
        if JS.truthy (command st2)
        then emit (XtermWrite (notFound (command st2))) st2
        else emit (XtermWrite PROMPT) st2
      else st2 in
    setCommand EmptyString st3
  else if String.eqb (domEvent_key ev) "Backspace"
          && (JS.length (command st) >=? 0) then
    let st1 := emit RemoveLastChar st in
    setCommand
      (JS.substring (command st1) 0 (JS.length (command st1) - 1)) st1
  else if isCharValid (key ev) then
    let st1 := emit (XtermWrite (key ev)) st in
    setCommand (command st1 ++ key ev) st1
  else if String.eqb (key ev) FF then clear st
  else if String.eqb (key ev) CR then toggleMaximize st
  else if String.eqb (key ev) LF then toggleClose st
  else st.

(** [pasteText] is [e.clipboardData?.getData("text")], [None] when there
    is no clipboard data. *)
Definition handlePaste (pasteText : option string) (st : State) : State :=
  match pasteText with
  | Some t =>
      if JS.truthy t then
        let st1 := emit (XtermWrite t) st in
        setCommand (command st1 ++ t) st1
      else st
  | None => st
  end.

(** [!currentLine?.split(PgTerminal.PROMPT)[1]?.trim()?.length] *)
Definition noCmd (currentLine : option string) : bool :=
  match currentLine with
  | None => true
  | Some line =>
      match nth_error (JS.split line PROMPT) 1 with
      | None => true
      | Some part => JS.length (JS.trim part) =? 0
      end
  end.

(** The effect run on a new value of the output atom.  [mounted] is
    [terminalRef.current], [currentLine] the result of
    [PgTerminal.getCurrentLine(xterm.buffer)], [terminal] the atom. *)
Definition newOutput (mounted : bool) (currentLine : option string)
           (terminal : string) (st : State) : State :=
  if mounted then
    let st1 :=
      if noCmd currentLine then emit ClearCurrentLine st
      else emit (XtermWriteln EmptyString) st in
    let st2 :=
      if negb (String.eqb terminal PROMPT)
      then emit (XtermWriteln (colorText terminal)) st1
      else emit (XtermWrite PROMPT) st1 in
    emit XtermScrollToBottom st2
  else st.

Definition handleKeybinds (e : KeyboardEvent) (st : State) : State :=
  let k := toUpperCase (e_key e) in
  if ctrlOrCmd e then
    if String.eqb k "L" then clear (emit PreventDefault st)
    else if String.eqb k "`" then
      let st1 := emit PreventDefault st in
      if terminalFocused e then toggleClose st1 else emit XtermFocus st1
    else if String.eqb k "J" then toggleClose (emit PreventDefault st)
    else if String.eqb k "M" then toggleMaximize (emit PreventDefault st)
    else st
  else st.

(** *** Notions used to state the properties *)

(** The panel is flagged closed exactly when its height is 0. *)
Definition invariant (st : State) : Prop :=
  isClosed st = true <-> height st = 0.

Inductive LayoutOp : Type :=
| ToggleClose
| ToggleMaximize
| DragResize (d_height : Z).

Definition applyOp (op : LayoutOp) (st : State) : State :=
  match op with
  | ToggleClose => toggleClose st
  | ToggleMaximize => toggleMaximize st
  | DragResize d => handleResizeStop d st
  end.

Inductive reachable : State -> Prop :=
| reach_init : reachable initialState
| reach_step op st : reachable st -> reachable (applyOp op st).

(** Key events, fed to the listener one after the other. *)
Definition runKeys (evs : list KeyEvent) (st : State) : State :=
  fold_left (fun s ev => handleKey ev s) evs st.

(** A key press that types one valid character. *)
Definition printableChar (ev : KeyEvent) : Prop :=
  domEvent_key ev <> "Enter" /\ domEvent_key ev <> "Backspace"
  /\ isCharValid (key ev) = true /\ String.length (key ev) = 1%nat.

Definition backspace (ev : KeyEvent) : Prop :=
  domEvent_key ev = "Backspace".

(** The characters typed by a list of key presses. *)
Definition typed (evs : list KeyEvent) : string :=
  fold_right (fun ev acc => key ev ++ acc) EmptyString evs.

(** Text handed to the emulator by a list of effects. *)
Definition textWritten (l : list Effect) : string :=
  fold_right (fun e acc => written e ++ acc) EmptyString l.

(** Layout operations applied one after the other. *)
Definition runOps (ops : list LayoutOp) (st : State) : State :=
  fold_left (fun s op => applyOp op s) ops st.

Definition isToggleClose (op : LayoutOp) : bool :=
  match op with
  | ToggleClose => true
  | _ => false
  end.

(** The part of the state the layout operations work on. *)
Definition layout (st : State) : Z * bool * bool :=
  (height st, isClosed st, maxButtonDown st).

Definition enterKey (ev : KeyEvent) : Prop :=
  domEvent_key ev = "Enter".

(** A key press taken by one of the first three branches of [handleKey]:
    Enter, Backspace or a character that [isCharValid] accepts. *)
Definition bufferKey (ev : KeyEvent) : Prop :=
  domEvent_key ev = "Enter" \/ domEvent_key ev = "Backspace"
  \/ isCharValid (key ev) = true.

(** What [handleKey] leaves in [command.current], from the key and the
    buffer alone. *)
Definition nextCommand (ev : KeyEvent) (cmd : string) : string :=
  if String.eqb (domEvent_key ev) "Enter" then EmptyString
  else if String.eqb (domEvent_key ev) "Backspace" then
    String.substring 0 (String.length cmd - 1) cmd
  else if isCharValid (key ev) then cmd ++ key ev
  else cmd.

(** *** The listeners and props the component registers

    Each event of the host reaches the handler wired to it: [xterm.onKey],
    the [paste] listener of the textarea, the effect on the output atom, the
    [keydown] listener of the document, [onResizeStop] of [Resizable] and
    [onClick] of the three buttons. *)
Inductive Event : Type :=
| OnKey (ev : KeyEvent)
| OnPaste (pasteText : option string)
| OnOutput (mounted : bool) (currentLine : option string) (terminal : string)
| OnKeydown (e : KeyboardEvent)
| OnResizeStop (d_height : Z)
| ClickClear
| ClickMaximize
| ClickClose.

Definition dispatch (e : Event) (st : State) : State :=
  match e with
  | OnKey ev => handleKey ev st
  | OnPaste t => handlePaste t st
  | OnOutput mounted line terminal => newOutput mounted line terminal st
  | OnKeydown e => handleKeybinds e st
  | OnResizeStop d => handleResizeStop d st
  | ClickClear => clear st
  | ClickMaximize => toggleMaximize st
  | ClickClose => toggleClose st
  end.

Definition runEvents (es : list Event) (st : State) : State :=
  fold_left (fun s e => dispatch e s) es st.

(** Events that can change the command buffer, and events that can change
    the layout. *)
Definition isInput (e : Event) : bool :=
  match e with
  | OnKey _ | OnPaste _ => true
  | _ => false
  end.

Definition affectsLayout (e : Event) : bool :=
  match e with
  | OnPaste _ | OnOutput _ _ _ | ClickClear => false
  | _ => true
  end.

(** ** Session layout *)

Lemma toggleClose_height (st : State) :
  height (toggleClose st) = if height st =? 0 then DEFAULT_HEIGHT else 0.
Proof. reflexivity. Qed.

Lemma toggleClose_isClosed (st : State) :
  isClosed (toggleClose st) = negb (isClosed st).
Proof. reflexivity. Qed.

Lemma toggleMaximize_height (st : State) :
  height (toggleMaximize st)
  = if height st =? MAX_HEIGHT then DEFAULT_HEIGHT else MAX_HEIGHT.
Proof. unfold toggleMaximize. destruct (height st =? MAX_HEIGHT); reflexivity. Qed.

Lemma toggleMaximize_isClosed (st : State) :
  isClosed (toggleMaximize st) = isClosed st.
Proof. unfold toggleMaximize. destruct (height st =? MAX_HEIGHT); reflexivity. Qed.

Lemma handleResizeStop_height (d : Z) (st : State) :
  height (handleResizeStop d st) = Z.min (height st + d) MAX_HEIGHT.
Proof.
  unfold handleResizeStop; simpl.
  destruct (Z.gtb_spec (height st + d) MAX_HEIGHT); lia.
Qed.

Lemma initialState_invariant :
  DEFAULT_HEIGHT <> 0 -> invariant initialState.
Proof. unfold invariant; simpl. intros Hd. split; [discriminate | contradiction]. Qed.

(** [toggleClose] keeps the flag and the height in step. *)
Lemma toggleClose_invariant (st : State) :
  DEFAULT_HEIGHT <> 0 -> invariant st -> invariant (toggleClose st).
Proof.
  unfold invariant. intros Hd [H1 H2].
  rewrite toggleClose_height, toggleClose_isClosed.
  destruct (Z.eqb_spec (height st) 0) as [E | E].
  - rewrite (H2 E). simpl. split; [discriminate | contradiction].
  - destruct (isClosed st); [exfalso; auto | simpl; split; reflexivity].
Qed.

(** C1: the invariant [isClosed = true <-> height = 0] is NOT kept by
    every layout operation.  From the initial state, [toggleClose] leads
    to the closed state (height 0, flag set), where the invariant holds;
    [toggleMaximize] then sets the height to [MAX_HEIGHT] and leaves the
    flag set, so the reachable state it produces breaks the invariant. *)
Theorem C1_toggleMaximize_breaks_invariant :
  MAX_HEIGHT <> 0 ->
  let closed := toggleClose initialState in
  let st := toggleMaximize closed in
  reachable closed /\ invariant closed
  /\ reachable st /\ isClosed st = true /\ height st = MAX_HEIGHT
  /\ ~ invariant st.
Proof.
  intros Hmax closed st.
  assert (Hc : height closed = 0).
  { unfold closed. rewrite toggleClose_height. simpl.
    destruct (Z.eqb_spec DEFAULT_HEIGHT 0); congruence. }
  assert (Hf : isClosed closed = true) by reflexivity.
  assert (Hh : height st = MAX_HEIGHT).
  { unfold st. rewrite toggleMaximize_height, Hc.
    destruct (Z.eqb_spec 0 MAX_HEIGHT); congruence. }
  assert (Hs : isClosed st = true).
  { unfold st. rewrite toggleMaximize_isClosed. exact Hf. }
  assert (Rc : reachable closed).
  { exact (reach_step ToggleClose _ reach_init). }
  repeat split; auto.
  - exact (reach_step ToggleMaximize _ Rc).
  - unfold invariant. rewrite Hs, Hh. intros [H _]. auto.
Qed.

(** A drag from the closed state breaks it as well: the height becomes
    the drag delta while the flag stays set. *)
Lemma drag_from_closed (d : Z) (st : State) :
  height st = 0 -> isClosed st = true -> d <> 0 -> d <= MAX_HEIGHT ->
  ~ invariant (handleResizeStop d st).
Proof.
  intros Hh Hc Hd Hle [H _].
  rewrite handleResizeStop_height in H. simpl in H.
  specialize (H Hc). lia.
Qed.

(** C2 (as amended): the height after a drag-resize stop is
    [min (h + d) MAX_HEIGHT].  It never exceeds [MAX_HEIGHT], a delta that
    would exceed [MAX_HEIGHT] clamps exactly to it, and any other delta is
    applied as it is; [handleResizeStop] has no lower clamp, so the result
    lies in [[MIN_HEIGHT, MAX_HEIGHT]] whenever [h + d] is at least
    [MIN_HEIGHT]. *)
Theorem C2_drag_resize_clamped_above (d : Z) (st : State) :
  MIN_HEIGHT <= MAX_HEIGHT ->
  let h' := height (handleResizeStop d st) in
  h' <= MAX_HEIGHT
  /\ (height st + d > MAX_HEIGHT -> h' = MAX_HEIGHT)
  /\ (height st + d <= MAX_HEIGHT -> h' = height st + d)
  /\ (MIN_HEIGHT <= height st + d -> MIN_HEIGHT <= h' <= MAX_HEIGHT).
Proof.
  intros Hmm h'. unfold h'. rewrite handleResizeStop_height. lia.
Qed.

(** C5: [toggleMaximize] at height [MAX_HEIGHT] yields [DEFAULT_HEIGHT];
    at any other height, 0 and custom heights included, it yields
    [MAX_HEIGHT]. *)
Theorem C5_toggleMaximize (st : State) :
  (height st = MAX_HEIGHT -> height (toggleMaximize st) = DEFAULT_HEIGHT)
  /\ (height st <> MAX_HEIGHT -> height (toggleMaximize st) = MAX_HEIGHT).
Proof.
  rewrite toggleMaximize_height.
  destruct (Z.eqb_spec (height st) MAX_HEIGHT); split; congruence.
Qed.

(** C6 (as amended): from every open height [h <> 0], the first
    [toggleClose] yields height 0 and the second yields [DEFAULT_HEIGHT];
    the result differs from the original height whenever the original
    height is not [DEFAULT_HEIGHT] itself. *)
Theorem C6_toggleClose_twice (st : State) :
  height st <> 0 ->
  height (toggleClose st) = 0
  /\ height (toggleClose (toggleClose st)) = DEFAULT_HEIGHT
  /\ (height st <> DEFAULT_HEIGHT ->
      height (toggleClose (toggleClose st)) <> height st).
Proof.
  intros Hopen.
  assert (H1 : height (toggleClose st) = 0).
  { rewrite toggleClose_height.
    destruct (Z.eqb_spec (height st) 0); congruence. }
  assert (H2 : height (toggleClose (toggleClose st)) = DEFAULT_HEIGHT).
  { rewrite toggleClose_height, H1. reflexivity. }
  repeat split; auto. rewrite H2. auto.
Qed.

(** ** Facts on the string primitives *)

Lemma append_empty_r (s : string) : s ++ EmptyString = s.
Proof. induction s as [| c s IH]; simpl; [reflexivity | now rewrite IH]. Qed.

Lemma append_assoc (a b c : string) : (a ++ b) ++ c = a ++ (b ++ c).
Proof. induction a as [| x a IH]; simpl; [reflexivity | now rewrite IH]. Qed.

Lemma length_append (a b : string) :
  String.length (a ++ b) = (String.length a + String.length b)%nat.
Proof. induction a as [| x a IH]; simpl; [reflexivity | now rewrite IH]. Qed.

Lemma take_length (m : nat) (s : string) :
  String.length (String.substring 0 m s) = Nat.min m (String.length s).
Proof.
  revert m. induction s as [| c s IH]; intros [| m]; simpl; auto.
Qed.

Lemma take_take (a b : nat) (s : string) :
  String.substring 0 a (String.substring 0 b s)
  = String.substring 0 (Nat.min a b) s.
Proof.
  revert a b. induction s as [| c s IH]; intros [| a] [| b]; simpl; auto.
  now rewrite IH.
Qed.

Lemma take_all (m : nat) (s : string) :
  (String.length s <= m)%nat -> String.substring 0 m s = s.
Proof.
  revert m. induction s as [| c s IH]; intros [| m] H; simpl in *;
    try reflexivity; try lia.
  rewrite IH; [reflexivity | lia].
Qed.

(** [s.substring(0, s.length - 1)] drops the last code unit, and is the
    empty string on the empty string. *)
Lemma substring_drop_last (s : string) :
  JS.substring s 0 (JS.length s - 1)
  = String.substring 0 (String.length s - 1) s.
Proof.
  unfold JS.substring, JS.length.
  set (n := String.length s).
  replace (Z.min (Z.max 0 0) (Z.of_nat n)) with 0 by lia.
  destruct n as [| n].
  - reflexivity.
  - replace (Z.min (Z.max (Z.of_nat (S n) - 1) 0) (Z.of_nat (S n)))
      with (Z.of_nat n) by lia.
    replace (Z.min 0 (Z.of_nat n)) with 0 by lia.
    replace (Z.max 0 (Z.of_nat n) - 0) with (Z.of_nat n) by lia.
    rewrite Nat2Z.id. simpl. now rewrite Nat.sub_0_r.
Qed.

Lemma truthy_false (s : string) : JS.truthy s = false <-> s = EmptyString.
Proof. destruct s; simpl; split; congruence. Qed.

Lemma truthy_true (s : string) : JS.truthy s = true <-> s <> EmptyString.
Proof. destruct s; simpl; split; congruence. Qed.

Lemma trimStart_allWhiteSpace (s : string) :
  JS.allWhiteSpace (JS.trimStart s) = JS.allWhiteSpace s.
Proof.
  induction s as [| c s IH]; simpl; [reflexivity |].
  destruct (JS.isWhiteSpace c) eqn:E; simpl; [exact IH | now rewrite E].
Qed.

Lemma trimEnd_empty (s : string) :
  JS.trimEnd s = EmptyString <-> JS.allWhiteSpace s = true.
Proof.
  induction s as [| c s IH]; simpl; [split; reflexivity |].
  destruct (JS.trimEnd s) eqn:E.
  - destruct (JS.isWhiteSpace c); simpl.
    + first [exact IH | rewrite E in IH; exact IH].
    + split; discriminate.
  - split; [discriminate |].
    intros H. apply andb_true_iff in H. destruct H as [_ H].
    apply IH in H. discriminate.
Qed.

(** [s.trim().length] is 0 exactly when [s] is empty or white space
    only. *)
Lemma trim_length_zero (s : string) :
  (JS.length (JS.trim s) =? 0) = JS.allWhiteSpace s.
Proof.
  unfold JS.trim, JS.length.
  rewrite <- trimStart_allWhiteSpace.
  destruct (JS.trimEnd (JS.trimStart s)) eqn:E.
  - symmetry. apply trimEnd_empty. exact E.
  - simpl. symmetry. apply not_true_is_false. intros H.
    apply trimEnd_empty in H. congruence.
Qed.

Lemma allWhiteSpace_append (a b : string) :
  JS.allWhiteSpace (a ++ b) = JS.allWhiteSpace a && JS.allWhiteSpace b.
Proof.
  induction a as [| c a IH]; simpl; [reflexivity |].
  now rewrite IH, andb_assoc.
Qed.

Lemma prefix_append (p s : string) : String.prefix p (p ++ s) = true.
Proof.
  induction p as [| c p IH]; simpl; [now destruct s |].
  destruct (ascii_dec c c); [exact IH | congruence].
Qed.

Lemma drop_append (p s : string) : JS.drop (String.length p) (p ++ s) = s.
Proof. induction p as [| c p IH]; simpl; [reflexivity | exact IH]. Qed.

Lemma afterFirst_eq (marker s : string) :
  JS.afterFirst marker s
  = if String.prefix marker s
    then Some (JS.drop (String.length marker) s)
    else match s with
         | EmptyString => None
         | String _ s' => JS.afterFirst marker s'
         end.
Proof. destruct s; reflexivity. Qed.

Lemma afterFirst_append (p s : string) :
  JS.afterFirst p (p ++ s) = Some s.
Proof. now rewrite afterFirst_eq, prefix_append, drop_append. Qed.

(** Stepping over the rest of a separator occurrence. *)
Lemma split_go_skip (sep a cur s : string) :
  JS.split_go sep (String.length a) cur (a ++ s) = JS.split_go sep 0 cur s.
Proof. induction a as [| c a IH]; simpl; [reflexivity | exact IH]. Qed.

(** Without an occurrence of the separator there is a single piece. *)
Lemma split_go_absent (sep cur s : string) :
  JS.includes s sep = false -> JS.split_go sep 0 cur s = [cur ++ s].
Proof.
  revert cur. induction s as [| c s IH]; intros cur H; simpl.
  - now rewrite append_empty_r.
  - simpl in H. apply orb_false_iff in H. destruct H as [Hp Hi].
    simpl in Hp. rewrite Hp. rewrite IH by exact Hi.
    now rewrite append_assoc.
Qed.

(** A line that starts with the separator: an empty first piece, then the
    pieces of what follows. *)
Lemma split_leading (sep s : string) :
  sep <> EmptyString ->
  JS.split (sep ++ s) sep = EmptyString :: JS.split s sep.
Proof.
  intros Hne. destruct sep as [| c sep]; [congruence |].
  unfold JS.split.
  change (String c sep ++ s) with (String c (sep ++ s)).
  cbn [JS.split_go].
  change (String c (sep ++ s)) with (String c sep ++ s).
  rewrite prefix_append. cbn [String.length Nat.pred].
  now rewrite split_go_skip.
Qed.

(** ** Key presses *)

Lemma handleKey_enter (ev : KeyEvent) (st : State) :
  domEvent_key ev = "Enter" ->
  handleKey ev st
  = let st2 :=
      emit (ParseCommand (command st)) (emit (XtermWriteln EmptyString) st) in
    setCommand EmptyString
      (if negb (parseCommand (command st)) then
         if JS.truthy (command st)
         then emit (XtermWrite (notFound (command st))) st2
         else emit (XtermWrite PROMPT) st2
       else st2).
Proof. intros H. unfold handleKey. rewrite H. reflexivity. Qed.

Lemma handleKey_backspace (ev : KeyEvent) (st : State) :
  backspace ev ->
  handleKey ev st
  = setCommand
      (String.substring 0 (String.length (command st) - 1) (command st))
      (emit RemoveLastChar st).
Proof.
  intros H. unfold handleKey. rewrite H. simpl.
  assert (G : (JS.length (command st) >=? 0) = true).
  { unfold JS.length. apply Z.geb_le. lia. }
  rewrite G. simpl. now rewrite substring_drop_last.
Qed.

Lemma handleKey_printableChar (ev : KeyEvent) (st : State) :
  printableChar ev ->
  handleKey ev st
  = setCommand (command st ++ key ev) (emit (XtermWrite (key ev)) st).
Proof.
  intros (HE & HB & HV & _). unfold handleKey.
  apply String.eqb_neq in HE, HB. rewrite HE, HB, HV. reflexivity.
Qed.

Lemma runKeys_app (a b : list KeyEvent) (st : State) :
  runKeys (a ++ b) st = runKeys b (runKeys a st).
Proof. unfold runKeys. apply fold_left_app. Qed.

Lemma runKeys_printableChar (evs : list KeyEvent) (st : State) :
  Forall printableChar evs ->
  command (runKeys evs st) = command st ++ typed evs.
Proof.
  intros H. revert st.
  induction H as [| ev evs Hev _ IH]; intros st; simpl.
  - now rewrite append_empty_r.
  - rewrite handleKey_printableChar by exact Hev.
    change (fold_left (fun s e => handleKey e s) evs ?x) with (runKeys evs x).
    rewrite IH. simpl. now rewrite append_assoc.
Qed.

Lemma typed_length (evs : list KeyEvent) :
  Forall printableChar evs ->
  String.length (typed evs) = List.length evs.
Proof.
  induction 1 as [| ev evs (_ & _ & _ & Hl) _ IH]; simpl; [reflexivity |].
  rewrite length_append, Hl, IH. reflexivity.
Qed.

Lemma runKeys_backspace (bs : list KeyEvent) (st : State) :
  Forall backspace bs ->
  command (runKeys bs st)
  = String.substring 0 (String.length (command st) - List.length bs)
                     (command st).
Proof.
  intros H. revert st.
  induction H as [| ev bs Hev _ IH]; intros st; simpl.
  - rewrite take_all; [reflexivity | lia].
  - rewrite handleKey_backspace by exact Hev.
    change (fold_left (fun s e => handleKey e s) bs ?x) with (runKeys bs x).
    rewrite IH. simpl. rewrite take_length, take_take.
    f_equal. lia.
Qed.

(** C3: on Enter, when the interpreter does not recognise the command
    and the buffer is not empty, the dispatcher writes exactly
    ["Command '<italic of the trimmed buffer>' not found.\n\n<PROMPT>"];
    when the buffer is empty it writes exactly the prompt and no error
    text; whatever the verdict, the buffer is empty afterwards. *)
Theorem C3_unrecognized_command (ev : KeyEvent) (st : State) :
  domEvent_key ev = "Enter" ->
  let st' := handleKey ev st in
  command st' = EmptyString
  /\ (parseCommand (command st) = false ->
      command st <> EmptyString ->
      effects st'
      = (effects st
         ++ [XtermWriteln EmptyString; ParseCommand (command st);
             XtermWrite ("Command '" ++ italic (JS.trim (command st))
                         ++ "' not found." ++ LF ++ LF ++ PROMPT)%string])%list)
  /\ (parseCommand (command st) = false ->
      command st = EmptyString ->
      effects st'
      = (effects st
         ++ [XtermWriteln EmptyString; ParseCommand EmptyString;
             XtermWrite PROMPT])%list).
Proof.
  intros HE st'. unfold st'. rewrite (handleKey_enter ev st HE).
  split; [reflexivity |].
  split; intros HP HC; rewrite HP; simpl.
  - apply truthy_true in HC. rewrite HC. simpl.
    rewrite <- !app_assoc. reflexivity.
  - rewrite HC. simpl. rewrite <- !app_assoc. reflexivity.
Qed.

(** C4: after a run of printable characters followed by a run of
    backspaces, starting from an empty buffer, the length of the buffer is
    [max 0 (appended - backspaces)] and its content is the prefix of that
    length of the characters typed; a backspace on an empty buffer leaves
    it empty. *)
Theorem C4_type_then_backspace (evs bs : list KeyEvent) (st : State) :
  command st = EmptyString ->
  Forall printableChar evs ->
  Forall backspace bs ->
  let st' := runKeys (evs ++ bs) st in
  JS.length (command st')
  = Z.max 0 (Z.of_nat (List.length evs) - Z.of_nat (List.length bs))
  /\ command st'
     = String.substring 0 (List.length evs - List.length bs) (typed evs)
  /\ (forall ev st0,
        backspace ev -> command st0 = EmptyString ->
        command (handleKey ev st0) = EmptyString).
Proof.
  intros H0 He Hb st'.
  assert (Hc : command st'
               = String.substring 0 (List.length evs - List.length bs)
                                  (typed evs)).
  { unfold st'. rewrite runKeys_app, runKeys_backspace by exact Hb.
    rewrite runKeys_printableChar by exact He.
    rewrite H0. simpl. now rewrite typed_length. }
  split; [| split].
  - rewrite Hc. unfold JS.length.
    rewrite take_length, typed_length by exact He. lia.
  - exact Hc.
  - intros ev st0 Hev Hs. rewrite handleKey_backspace by exact Hev.
    rewrite Hs. reflexivity.
Qed.

(** C8: on every Enter press the first thing done is to write a newline
    to the emulator; the command is handed to the interpreter after it,
    and whatever is written for the verdict comes later still. *)
Theorem C8_newline_before_dispatch (ev : KeyEvent) (st : State) :
  domEvent_key ev = "Enter" ->
  exists rest,
    effects (handleKey ev st)
    = (effects st
       ++ XtermWriteln EmptyString :: ParseCommand (command st) :: rest)%list.
Proof.
  intros HE. rewrite (handleKey_enter ev st HE). simpl.
  destruct (parseCommand (command st)); simpl.
  - exists []. now rewrite <- app_assoc.
  - destruct (JS.truthy (command st)); simpl;
      eexists; rewrite <- !app_assoc; reflexivity.
Qed.

(** ** Paste and clear *)

(** C9: a paste hands the pasted text to the emulator as it is and
    appends it to the buffer as it is: the buffer afterwards is the old
    buffer followed by the pasted text, and the text written to the
    emulator is the pasted text (one [write] of it; nothing to write when
    it is empty). *)
Theorem C9_paste_verbatim (t : string) (st : State) :
  let st' := handlePaste (Some t) st in
  command st' = command st ++ t
  /\ (exists new,
        effects st' = (effects st ++ new)%list /\ textWritten new = t)
  /\ (t <> EmptyString ->
      effects st' = (effects st ++ [XtermWrite t])%list)
  /\ height st' = height st /\ isClosed st' = isClosed st.
Proof.
  simpl. destruct t as [| c t]; simpl.
  - rewrite append_empty_r. repeat split; try congruence.
    exists []. now rewrite app_nil_r.
  - repeat split.
    exists [XtermWrite (String c t)]. simpl. now rewrite append_empty_r.
Qed.

Lemma clear_frame (st : State) :
  command (clear st) = command st
  /\ effects (clear st) = (effects st ++ [XtermClear])%list
  /\ height (clear st) = height st /\ isClosed (clear st) = isClosed st.
Proof. repeat split. Qed.

(** C10: clearing touches the emulator screen only.  The clear button
    ([clear]), the form-feed control byte received by the key listener and
    the Ctrl/Cmd+L key binding all leave the command buffer as it was. *)
Theorem C10_clear_keeps_command (st : State) :
  command (clear st) = command st
  /\ (forall ev,
        domEvent_key ev <> "Enter" -> domEvent_key ev <> "Backspace" ->
        isCharValid (key ev) = false -> key ev = FF ->
        handleKey ev st = clear st
        /\ command (handleKey ev st) = command st)
  /\ (forall e,
        ctrlOrCmd e = true -> toUpperCase (e_key e) = "L" ->
        command (handleKeybinds e st) = command st
        /\ effects (handleKeybinds e st)
           = (effects st ++ [PreventDefault; XtermClear])%list).
Proof.
  split; [reflexivity | split].
  - intros ev HE HB HV HK.
    assert (G : handleKey ev st = clear st).
    { unfold handleKey. apply String.eqb_neq in HE, HB.
      rewrite HE, HB, HV, HK. reflexivity. }
    split; [exact G | now rewrite G].
  - intros e HC HK. unfold handleKeybinds. rewrite HC, HK. simpl.
    split; [reflexivity | now rewrite <- app_assoc].
Qed.

(** ** New output *)

Lemma newOutput_effects (currentLine : option string) (terminal : string)
      (st : State) :
  effects (newOutput true currentLine terminal st)
  = (effects st
     ++ [if noCmd currentLine then ClearCurrentLine
         else XtermWriteln EmptyString;
         if String.eqb terminal PROMPT then XtermWrite PROMPT
         else XtermWriteln (colorText terminal);
         XtermScrollToBottom])%list.
Proof.
  unfold newOutput.
  destruct (noCmd currentLine), (String.eqb terminal PROMPT); simpl;
    rewrite <- !app_assoc; reflexivity.
Qed.

Lemma newOutput_frame (mounted : bool) (currentLine : option string)
      (terminal : string) (st : State) :
  let st' := newOutput mounted currentLine terminal st in
  command st' = command st /\ height st' = height st
  /\ isClosed st' = isClosed st.
Proof.
  unfold newOutput.
  destruct mounted, (noCmd currentLine), (String.eqb terminal PROMPT);
    repeat split.
Qed.

(** On a line made of the prompt and of typed text in which the prompt
    does not occur, [noCmd] says whether the typed text is blank. *)
Lemma noCmd_prompt_line (typedText : string) :
  PROMPT <> EmptyString ->
  JS.includes typedText PROMPT = false ->
  noCmd (Some (PROMPT ++ typedText)) = JS.allWhiteSpace typedText.
Proof.
  intros Hne Hinc. unfold noCmd.
  rewrite split_leading by exact Hne.
  assert (E : JS.split typedText PROMPT = [typedText]).
  { unfold JS.split. destruct PROMPT eqn:EP; [congruence |].
    now rewrite split_go_absent. }
  rewrite E. simpl. apply trim_length_zero.
Qed.

(** In that case the effect does what is expected of it: a blank line is
    cleared in place, a line with typed text is kept and the output starts
    on the next line. *)
Lemma newOutput_prompt_line (typedText terminal : string) (st : State) :
  PROMPT <> EmptyString ->
  JS.includes typedText PROMPT = false ->
  exists rest,
    effects (newOutput true (Some (PROMPT ++ typedText)) terminal st)
    = (effects st
       ++ (if JS.allWhiteSpace typedText then ClearCurrentLine
           else XtermWriteln EmptyString) :: rest)%list.
Proof.
  intros Hne Hinc. rewrite newOutput_effects.
  rewrite noCmd_prompt_line by assumption.
  eexists. reflexivity.
Qed.

(** C7: the effect does NOT keep every in-progress command line.  When
    the text typed after the prompt itself starts with the prompt string
    (the current line is the prompt, the prompt again, then [ls]), the
    portion of the line after the prompt marker is not blank, yet [noCmd]
    is true: [split] cuts at the second occurrence too and the piece read
    is the empty one between the two.  The line is cleared in place
    instead of being kept above the new output. *)
Theorem C7_typed_prompt_line_is_cleared (terminal : string) (st : State) :
  PROMPT <> EmptyString ->
  JS.afterFirst PROMPT (PROMPT ++ PROMPT ++ "ls") = Some (PROMPT ++ "ls")
  /\ JS.allWhiteSpace (PROMPT ++ "ls") = false
  /\ noCmd (Some (PROMPT ++ PROMPT ++ "ls")) = true
  /\ effects (newOutput true (Some (PROMPT ++ PROMPT ++ "ls")) terminal st)
     = (effects st
        ++ [ClearCurrentLine;
            if String.eqb terminal PROMPT then XtermWrite PROMPT
            else XtermWriteln (colorText terminal);
            XtermScrollToBottom])%list.
Proof.
  intros Hne.
  assert (HN : noCmd (Some (PROMPT ++ PROMPT ++ "ls")) = true).
  { unfold noCmd. rewrite !split_leading by exact Hne. reflexivity. }
  split; [apply afterFirst_append |].
  split; [rewrite allWhiteSpace_append; simpl; apply andb_false_r |].
  split; [exact HN |].
  rewrite newOutput_effects, HN. reflexivity.
Qed.

(** ** Further properties of the layout *)

Lemma toggleClose_layout (st : State) :
  layout (toggleClose st)
  = (if height st =? 0 then DEFAULT_HEIGHT else 0,
     negb (isClosed st), maxButtonDown st).
Proof. reflexivity. Qed.

Lemma toggleMaximize_layout (st : State) :
  layout (toggleMaximize st)
  = if height st =? MAX_HEIGHT then (DEFAULT_HEIGHT, isClosed st, false)
    else (MAX_HEIGHT, isClosed st, true).
Proof.
  unfold toggleMaximize. destruct (height st =? MAX_HEIGHT); reflexivity.
Qed.

Lemma handleResizeStop_layout (d : Z) (st : State) :
  layout (handleResizeStop d st)
  = (Z.min (height st + d) MAX_HEIGHT, isClosed st, maxButtonDown st).
Proof.
  unfold layout. rewrite handleResizeStop_height. reflexivity.
Qed.

Lemma runOps_app (a b : list LayoutOp) (st : State) :
  runOps (a ++ b) st = runOps b (runOps a st).
Proof. unfold runOps. apply fold_left_app. Qed.

(** X1: The flag counts the presses of toggle-close and nothing else: after any
    run of layout operations it is the initial flag, flipped once for every
    [toggleClose] in the run, whatever the heights met on the way. *)
Theorem isClosed_counts_toggleClose (ops : list LayoutOp) (st : State) :
  isClosed (runOps ops st)
  = xorb (isClosed st)
         (Nat.odd (List.length (filter isToggleClose ops))).
Proof.
  revert st. induction ops as [| op ops IH]; intros st.
  - simpl. now rewrite xorb_false_r.
  - change (runOps (op :: ops) st) with (runOps ops (applyOp op st)).
    rewrite IH. destruct op; simpl filter; simpl applyOp.
    + rewrite toggleClose_isClosed.
      change (List.length (ToggleClose :: filter isToggleClose ops))
        with (S (List.length (filter isToggleClose ops))).
      rewrite Nat.odd_succ, <- Nat.negb_odd.
      destruct (isClosed st), (Nat.odd _); reflexivity.
    + now rewrite toggleMaximize_isClosed.
    + reflexivity.
Qed.

(** X2: Pressing toggle-close again and again from the initial state
    alternates between the closed panel and the default height, and the
    flag follows the height all along. *)
Theorem toggleClose_alternates (n : nat) :
  DEFAULT_HEIGHT <> 0 ->
  let st := Nat.iter n toggleClose initialState in
  height st = (if Nat.even n then DEFAULT_HEIGHT else 0)
  /\ isClosed st = Nat.odd n
  /\ invariant st.
Proof.
  intros Hd. cbv zeta. induction n as [| n IH].
  - simpl. repeat split; [discriminate | contradiction].
  - destruct IH as (Hh & Hc & Hi).
    change (Nat.iter (S n) toggleClose initialState)
      with (toggleClose (Nat.iter n toggleClose initialState)).
    assert (Hh' : height (toggleClose (Nat.iter n toggleClose initialState))
                  = if Nat.even (S n) then DEFAULT_HEIGHT else 0).
    { rewrite toggleClose_height, Hh, Nat.even_succ, <- Nat.negb_even.
      destruct (Nat.even n); simpl.
      - destruct (Z.eqb_spec DEFAULT_HEIGHT 0); congruence.
      - reflexivity. }
    assert (Hc' : isClosed (toggleClose (Nat.iter n toggleClose initialState))
                  = Nat.odd (S n)).
    { rewrite toggleClose_isClosed, Hc, Nat.odd_succ, <- Nat.negb_odd.
      reflexivity. }
    split; [exact Hh' | split; [exact Hc' |]].
    apply toggleClose_invariant; assumption.
Qed.

(** X3: Two presses of toggle-maximize do not give back a custom height: from
    [MAX_HEIGHT] they return to [MAX_HEIGHT], from any other height they end
    at [DEFAULT_HEIGHT].  After each press the maximize button carries the
    class [down] exactly when the panel is at [MAX_HEIGHT]. *)
Theorem toggleMaximize_twice (st : State) :
  DEFAULT_HEIGHT <> MAX_HEIGHT ->
  height (toggleMaximize (toggleMaximize st))
  = (if height st =? MAX_HEIGHT then MAX_HEIGHT else DEFAULT_HEIGHT)
  /\ (maxButtonDown (toggleMaximize st) = true
      <-> height (toggleMaximize st) = MAX_HEIGHT).
Proof.
  intros Hne. split.
  - rewrite !toggleMaximize_height.
    destruct (Z.eqb_spec (height st) MAX_HEIGHT).
    + destruct (Z.eqb_spec DEFAULT_HEIGHT MAX_HEIGHT); congruence.
    + now rewrite Z.eqb_refl.
  - pose proof (toggleMaximize_layout st) as H. unfold layout in H.
    destruct (height st =? MAX_HEIGHT); inversion H; subst; split;
      congruence.
Qed.

(** ** Further properties of the command line *)

Lemma take_append (a b : string) :
  String.substring 0 (String.length a) (a ++ b) = a.
Proof.
  induction a as [| c a IH]; simpl.
  - now destruct b.
  - now rewrite IH.
Qed.

Lemma trim_blank (s : string) :
  JS.allWhiteSpace s = true -> JS.trim s = EmptyString.
Proof.
  intros H. unfold JS.trim. apply trimEnd_empty.
  now rewrite trimStart_allWhiteSpace.
Qed.

Lemma handleKey_command (ev : KeyEvent) (st : State) :
  command (handleKey ev st) = nextCommand ev (command st).
Proof.
  unfold handleKey, nextCommand.
  destruct (String.eqb (domEvent_key ev) "Enter").
  - reflexivity.
  - destruct (String.eqb (domEvent_key ev) "Backspace").
    + assert (G : (JS.length (command st) >=? 0) = true).
      { unfold JS.length. apply Z.geb_le. lia. }
      rewrite G. simpl. apply substring_drop_last.
    + simpl. destruct (isCharValid (key ev)); [reflexivity |].
      destruct (String.eqb (key ev) FF); [reflexivity |].
      destruct (String.eqb (key ev) CR).
      { unfold toggleMaximize.
        destruct (height st =? MAX_HEIGHT); reflexivity. }
      destruct (String.eqb (key ev) LF); reflexivity.
Qed.

Lemma handleKey_backspace_effects (ev : KeyEvent) (st : State) :
  backspace ev ->
  effects (handleKey ev st) = (effects st ++ [RemoveLastChar])%list.
Proof. intros H. now rewrite handleKey_backspace. Qed.

Lemma runKeys_cons (ev : KeyEvent) (evs : list KeyEvent) (st : State) :
  runKeys (ev :: evs) st = runKeys evs (handleKey ev st).
Proof. reflexivity. Qed.

Lemma runKeys_printableChar_effects (evs : list KeyEvent) (st : State) :
  Forall printableChar evs ->
  effects (runKeys evs st)
  = (effects st ++ map (fun ev => XtermWrite (key ev)) evs)%list.
Proof.
  intros H. revert st.
  induction H as [| ev evs Hev _ IH]; intros st.
  - simpl. now rewrite app_nil_r.
  - rewrite runKeys_cons, IH, handleKey_printableChar by exact Hev.
    simpl. now rewrite <- app_assoc.
Qed.

Lemma textWritten_keys (evs : list KeyEvent) :
  textWritten (map (fun ev => XtermWrite (key ev)) evs) = typed evs.
Proof.
  induction evs as [| ev evs IH]; simpl; [reflexivity | now rewrite IH].
Qed.

Lemma handlePaste_command (t : string) (st : State) :
  command (handlePaste (Some t) st) = command st ++ t.
Proof.
  simpl. destruct t; simpl; [now rewrite append_empty_r | reflexivity].
Qed.

(** X4: While printable characters are typed, the emulator and the buffer move
    in step: each key is written once to the emulator, in order, the text
    written is the text typed, and the buffer grows by that same text. *)
Theorem typing_in_lockstep (evs : list KeyEvent) (st : State) :
  Forall printableChar evs ->
  let st' := runKeys evs st in
  effects st'
  = (effects st ++ map (fun ev => XtermWrite (key ev)) evs)%list
  /\ textWritten (map (fun ev => XtermWrite (key ev)) evs) = typed evs
  /\ command st' = command st ++ typed evs.
Proof.
  intros H. cbv zeta. split; [| split].
  - apply runKeys_printableChar_effects, H.
  - apply textWritten_keys.
  - apply runKeys_printableChar, H.
Qed.

(** X5: Typing characters and then erasing as many gives back the buffer that
    was there before, whatever it held. *)
Theorem type_erase_round_trip (evs bs : list KeyEvent) (st : State) :
  Forall printableChar evs ->
  Forall backspace bs ->
  List.length bs = List.length evs ->
  command (runKeys (evs ++ bs) st) = command st.
Proof.
  intros He Hb Hl.
  rewrite runKeys_app, runKeys_backspace by exact Hb.
  rewrite runKeys_printableChar by exact He.
  rewrite length_append, typed_length, Hl by exact He.
  replace (String.length (command st) + List.length evs - List.length evs)%nat
    with (String.length (command st)) by lia.
  apply take_append.
Qed.

(** X6: Every Backspace asks the emulator to remove a character, the buffer
    being empty or not: on an empty buffer the buffer stays empty and
    [PgTerminal.removeLastChar] is called all the same. *)
Theorem backspace_always_reaches_emulator (bs : list KeyEvent) (st : State) :
  Forall backspace bs ->
  effects (runKeys bs st)
  = (effects st ++ repeat RemoveLastChar (List.length bs))%list
  /\ (command st = EmptyString -> command (runKeys bs st) = EmptyString).
Proof.
  intros H. split.
  - revert st. induction H as [| ev bs Hev _ IH]; intros st.
    + simpl. now rewrite app_nil_r.
    + rewrite runKeys_cons, IH, handleKey_backspace_effects by exact Hev.
      simpl. now rewrite <- app_assoc.
  - intros H0. rewrite runKeys_backspace, H0 by exact H.
    simpl. now destruct (List.length bs).
Qed.

(** X7: Enter starts the buffer afresh: whatever keys came before it, the
    buffer after an Enter followed by printable characters is those
    characters. *)
Theorem buffer_restarts_at_enter
        (pre : list KeyEvent) (e : KeyEvent) (evs : list KeyEvent)
        (st : State) :
  enterKey e ->
  Forall printableChar evs ->
  command (runKeys (pre ++ e :: evs) st) = typed evs.
Proof.
  intros He Hp.
  rewrite runKeys_app, runKeys_cons, runKeys_printableChar by exact Hp.
  rewrite handleKey_enter by exact He. reflexivity.
Qed.

(** X8: A buffer made of white space only is not treated as an empty one: when
    the interpreter rejects it, the error text is written, with an empty
    command name, and not the bare prompt. *)
Theorem blank_command_not_found (ev : KeyEvent) (st : State) :
  enterKey ev ->
  parseCommand (command st) = false ->
  command st <> EmptyString ->
  JS.allWhiteSpace (command st) = true ->
  effects (handleKey ev st)
  = (effects st
     ++ [XtermWriteln EmptyString; ParseCommand (command st);
         XtermWrite ("Command '" ++ italic EmptyString ++ "' not found."
                     ++ LF ++ LF ++ PROMPT)%string])%list.
Proof.
  intros He Hp Hn Hw. rewrite handleKey_enter by exact He.
  rewrite Hp. apply truthy_true in Hn. simpl. rewrite Hn. simpl.
  unfold notFound. rewrite trim_blank by exact Hw.
  rewrite <- !app_assoc. reflexivity.
Qed.

(** X9: When the interpreter recognises the command, the dispatcher writes
    nothing after the newline: the next prompt is left to the interpreter.
    The buffer is emptied and the layout is untouched. *)
Theorem recognized_command_writes_nothing (ev : KeyEvent) (st : State) :
  enterKey ev ->
  parseCommand (command st) = true ->
  handleKey ev st
  = mkState (height st) (isClosed st) (maxButtonDown st) EmptyString
            (effects st
             ++ [XtermWriteln EmptyString; ParseCommand (command st)]).
Proof.
  intros He Hp. rewrite handleKey_enter by exact He.
  rewrite Hp. simpl. unfold setCommand, emit. simpl.
  now rewrite <- app_assoc.
Qed.

(** X10: The interpreter is handed the line as it was typed: after printable
    characters typed on an empty buffer and Enter, the emulator has received
    the characters, then a newline, and [parseCommand] is called on the text
    typed, not trimmed. *)
Theorem typed_line_is_dispatched
        (evs : list KeyEvent) (e : KeyEvent) (st : State) :
  command st = EmptyString ->
  Forall printableChar evs ->
  enterKey e ->
  exists rest,
    effects (runKeys (evs ++ [e]) st)
    = (effects st ++ map (fun ev => XtermWrite (key ev)) evs
       ++ XtermWriteln EmptyString :: ParseCommand (typed evs) :: rest)%list.
Proof.
  intros H0 Hp He.
  rewrite runKeys_app. simpl.
  rewrite handleKey_enter by exact He.
  rewrite runKeys_printableChar, H0 by exact Hp. cbn [append].
  set (s1 := runKeys evs st).
  assert (E : effects s1
              = (effects st ++ map (fun ev => XtermWrite (key ev)) evs)%list).
  { apply runKeys_printableChar_effects, Hp. }
  destruct (parseCommand (typed evs)); simpl.
  - exists []. rewrite E, <- !app_assoc. reflexivity.
  - destruct (JS.truthy (typed evs)); simpl;
      eexists; rewrite E, <- !app_assoc; reflexivity.
Qed.

(** X11: Pasted text is erased one code unit per Backspace: a paste followed by
    as many Backspaces as the text is long gives back the buffer. *)
Theorem paste_erase_round_trip (t : string) (bs : list KeyEvent) (st : State) :
  Forall backspace bs ->
  List.length bs = String.length t ->
  command (runKeys bs (handlePaste (Some t) st)) = command st.
Proof.
  intros Hb Hl.
  rewrite runKeys_backspace, handlePaste_command by exact Hb.
  rewrite length_append, Hl.
  replace (String.length (command st) + String.length t - String.length t)%nat
    with (String.length (command st)) by lia.
  apply take_append.
Qed.

(** X12: A paste never submits: whatever the text holds, line feeds included,
    it stays in the buffer, and the next Enter hands the old buffer followed
    by the pasted text to the interpreter. *)
Theorem paste_waits_for_enter (t : string) (e : KeyEvent) (st : State) :
  enterKey e ->
  let pasted := handlePaste (Some t) st in
  Forall (fun x => forall c, x <> ParseCommand c)
         (skipn (List.length (effects st)) (effects pasted))
  /\ exists rest,
       effects (handleKey e pasted)
       = (effects pasted
          ++ XtermWriteln EmptyString
          :: ParseCommand (command st ++ t) :: rest)%list.
Proof.
  intros He pasted. split.
  - unfold pasted. simpl. destruct (JS.truthy t); simpl.
    + rewrite skipn_app, skipn_all, Nat.sub_diag. simpl.
      constructor; [discriminate | constructor].
    + rewrite skipn_all. constructor.
  - rewrite handleKey_enter by exact He.
    unfold pasted at 1 2 3 4 5 6. rewrite handlePaste_command. simpl.
    destruct (parseCommand (command st ++ t)); simpl.
    + exists []. now rewrite <- !app_assoc.
    + destruct (JS.truthy (command st ++ t)); simpl;
        eexists; rewrite <- !app_assoc; reflexivity.
Qed.

(** ** The component as a whole *)

Ltac split_branches :=
  repeat match goal with
         | |- context [if ?b then _ else _] => destruct b
         end.

Lemma length_geb_0 (s : string) : (JS.length s >=? 0) = true.
Proof. unfold JS.length. apply Z.geb_le. lia. Qed.

Lemma handleKey_layout_congr (ev : KeyEvent) (s1 s2 : State) :
  layout s1 = layout s2 ->
  layout (handleKey ev s1) = layout (handleKey ev s2).
Proof.
  destruct s1 as [h1 c1 m1 cmd1 e1], s2 as [h2 c2 m2 cmd2 e2].
  unfold layout. simpl. intros H. injection H as -> -> ->.
  unfold handleKey. rewrite !length_geb_0.
  unfold toggleMaximize, toggleClose, clear. simpl.
  destruct (String.eqb (domEvent_key ev) "Enter").
  - destruct (parseCommand cmd1), (parseCommand cmd2),
      (JS.truthy cmd1), (JS.truthy cmd2); reflexivity.
  - split_branches; reflexivity.
Qed.

Lemma handleKeybinds_layout_congr (e : KeyboardEvent) (s1 s2 : State) :
  layout s1 = layout s2 ->
  layout (handleKeybinds e s1) = layout (handleKeybinds e s2).
Proof.
  destruct s1 as [h1 c1 m1 cmd1 e1], s2 as [h2 c2 m2 cmd2 e2].
  unfold layout. simpl. intros H. injection H as -> -> ->.
  unfold handleKeybinds, toggleMaximize, toggleClose, clear. simpl.
  split_branches; reflexivity.
Qed.

Lemma dispatch_layout_congr (e : Event) (s1 s2 : State) :
  layout s1 = layout s2 ->
  layout (dispatch e s1) = layout (dispatch e s2).
Proof.
  intros H. destruct e as [ev | t | m l t | e | d | | |]; simpl.
  - apply handleKey_layout_congr, H.
  - destruct t as [t |]; simpl; [destruct (JS.truthy t) |]; exact H.
  - unfold newOutput. split_branches; exact H.
  - apply handleKeybinds_layout_congr, H.
  - rewrite !handleResizeStop_layout. unfold layout in H.
    injection H as Hh Hc Hm. now rewrite Hh, Hc, Hm.
  - exact H.
  - rewrite !toggleMaximize_layout. unfold layout in H.
    injection H as Hh Hc Hm. now rewrite Hh, Hc.
  - rewrite !toggleClose_layout. unfold layout in H.
    injection H as Hh Hc Hm. now rewrite Hh, Hc, Hm.
Qed.

Lemma dispatch_layout_frame (e : Event) (st : State) :
  affectsLayout e = false -> layout (dispatch e st) = layout st.
Proof.
  destruct e as [ev | t | m l t | e | d | | |]; simpl; try discriminate;
    intros _.
  - destruct t as [t |]; simpl; [destruct (JS.truthy t) |]; reflexivity.
  - unfold newOutput. split_branches; reflexivity.
  - reflexivity.
Qed.

Lemma handleKeybinds_command (e : KeyboardEvent) (st : State) :
  command (handleKeybinds e st) = command st.
Proof.
  unfold handleKeybinds, toggleMaximize, toggleClose, clear. simpl.
  split_branches; reflexivity.
Qed.

Lemma dispatch_command_congr (e : Event) (s1 s2 : State) :
  command s1 = command s2 ->
  command (dispatch e s1) = command (dispatch e s2).
Proof.
  intros H. destruct e as [ev | t | m l t | e | d | | |]; simpl.
  - rewrite !handleKey_command. now rewrite H.
  - destruct t as [t |]; simpl; [| exact H].
    destruct (JS.truthy t); simpl; now rewrite H.
  - unfold newOutput. split_branches; exact H.
  - now rewrite !handleKeybinds_command.
  - exact H.
  - exact H.
  - unfold toggleMaximize. split_branches; exact H.
  - exact H.
Qed.

Lemma dispatch_command_frame (e : Event) (st : State) :
  isInput e = false -> command (dispatch e st) = command st.
Proof.
  destruct e as [ev | t | m l t | e | d | | |]; simpl; try discriminate;
    intros _; try reflexivity.
  - unfold newOutput. split_branches; reflexivity.
  - apply handleKeybinds_command.
  - unfold toggleMaximize. split_branches; reflexivity.
Qed.

Lemma runEvents_cons (e : Event) (es : list Event) (st : State) :
  runEvents (e :: es) st = runEvents es (dispatch e st).
Proof. reflexivity. Qed.

(** X13: The command buffer is driven by key presses and pastes alone: output
    arriving from the interpreter, key bindings, drags and button clicks
    interleaved with them, in any number and at any point, leave the buffer
    exactly as if they had not happened. *)
Theorem buffer_depends_on_input_only (es : list Event) (st : State) :
  command (runEvents es st)
  = command (runEvents (filter isInput es) st).
Proof.
  assert (G : forall s1 s2, command s1 = command s2 ->
              command (runEvents es s1)
              = command (runEvents (filter isInput es) s2)).
  { induction es as [| e es IH]; intros s1 s2 H; [exact H |].
    rewrite runEvents_cons. simpl filter.
    destruct (isInput e) eqn:E.
    - rewrite runEvents_cons. apply IH, dispatch_command_congr, H.
    - apply IH. now rewrite dispatch_command_frame. }
  apply G. reflexivity.
Qed.

(** X14: The layout (height, closed flag, class of the maximize button) is
    driven by drags, clicks, key bindings and control keys alone: pastes,
    output and clearing the screen never change it, nor does the content of
    the buffer. *)
Theorem layout_depends_on_layout_events_only (es : list Event) (st : State) :
  layout (runEvents es st)
  = layout (runEvents (filter affectsLayout es) st).
Proof.
  assert (G : forall s1 s2, layout s1 = layout s2 ->
              layout (runEvents es s1)
              = layout (runEvents (filter affectsLayout es) s2)).
  { induction es as [| e es IH]; intros s1 s2 H; [exact H |].
    rewrite runEvents_cons. simpl filter.
    destruct (affectsLayout e) eqn:E.
    - rewrite runEvents_cons. apply IH, dispatch_layout_congr, H.
    - apply IH. now rewrite dispatch_layout_frame. }
  apply G. reflexivity.
Qed.

Lemma dispatch_height_le_MAX (e : Event) (st : State) :
  DEFAULT_HEIGHT <= MAX_HEIGHT -> 0 <= MAX_HEIGHT ->
  height st <= MAX_HEIGHT -> height (dispatch e st) <= MAX_HEIGHT.
Proof.
  intros Hd H0 H.
  destruct e as [ev | t | m l t | e | d | | |]; cbn [dispatch].
  - unfold handleKey, toggleMaximize, toggleClose, clear. simpl.
    split_branches; simpl; split_branches; lia.
  - destruct t as [t |]; simpl; [destruct (JS.truthy t) |]; exact H.
  - unfold newOutput. split_branches; exact H.
  - unfold handleKeybinds, toggleMaximize, toggleClose, clear. simpl.
    split_branches; simpl; split_branches; lia.
  - rewrite handleResizeStop_height. lia.
  - exact H.
  - rewrite toggleMaximize_height. split_branches; lia.
  - rewrite toggleClose_height. split_branches; lia.
Qed.

(** X15: Whatever the user and the interpreter do, the height of the panel never
    rises above [MAX_HEIGHT], as long as [DEFAULT_HEIGHT] and 0 do not. *)
Theorem height_never_exceeds_MAX (es : list Event) :
  DEFAULT_HEIGHT <= MAX_HEIGHT ->
  0 <= MAX_HEIGHT ->
  height (runEvents es initialState) <= MAX_HEIGHT.
Proof.
  intros Hd H0.
  assert (G : forall st, height st <= MAX_HEIGHT ->
              height (runEvents es st) <= MAX_HEIGHT).
  { induction es as [| e es IH]; intros st H; [exact H |].
    rewrite runEvents_cons. apply IH, dispatch_height_le_MAX; assumption. }
  apply G. exact Hd.
Qed.

(** X16: Keys that work on the buffer (Enter, Backspace, valid characters) never
    move the panel: Enter comes with the carriage-return byte that also
    stands for Ctrl+M, and still does not maximize. *)
Theorem buffer_keys_keep_layout (evs : list KeyEvent) (st : State) :
  Forall bufferKey evs ->
  layout (runKeys evs st) = layout st.
Proof.
  intros H. revert st.
  induction H as [| ev evs Hev _ IH]; intros st; [reflexivity |].
  rewrite runKeys_cons, IH.
  unfold handleKey. rewrite length_geb_0.
  destruct (String.eqb_spec (domEvent_key ev) "Enter") as [E | E].
  - split_branches; reflexivity.
  - destruct (String.eqb_spec (domEvent_key ev) "Backspace") as [B | B];
      [reflexivity |].
    destruct Hev as [Hev | [Hev | Hev]]; try contradiction.
    simpl. rewrite Hev. reflexivity.
Qed.

(** ** Further properties of the output effect and of the primitives *)

Lemma split_absent (line sep : string) :
  sep <> EmptyString ->
  JS.includes line sep = false -> JS.split line sep = [line].
Proof.
  intros Hne Hinc. unfold JS.split.
  destruct sep as [| c sep]; [congruence |].
  now rewrite split_go_absent.
Qed.

(** X17: A current line in which the prompt does not occur (a line of output,
    the continuation of a wrapped line) counts as holding no command: the
    effect clears it in place before rendering. *)
Theorem line_without_prompt_is_cleared
        (line terminal : string) (st : State) :
  PROMPT <> EmptyString ->
  JS.includes line PROMPT = false ->
  noCmd (Some line) = true
  /\ effects (newOutput true (Some line) terminal st)
     = (effects st
        ++ [ClearCurrentLine;
            if String.eqb terminal PROMPT then XtermWrite PROMPT
            else XtermWriteln (colorText terminal);
            XtermScrollToBottom])%list.
Proof.
  intros Hne Hinc.
  assert (HN : noCmd (Some line) = true).
  { unfold noCmd. now rewrite split_absent. }
  split; [exact HN |]. now rewrite newOutput_effects, HN.
Qed.

(** X18: On a line made of the prompt followed by typed text in which the prompt
    does not occur, the effect clears the line in place when the typed text
    is blank and otherwise leaves it and moves to a new line; it then writes
    the prompt as it is, or any other text coloured and followed by a line
    break, and scrolls to the bottom.  The buffer is not touched. *)
Theorem output_after_prompt_line
        (typedText terminal : string) (st : State) :
  PROMPT <> EmptyString ->
  JS.includes typedText PROMPT = false ->
  let st' := newOutput true (Some (PROMPT ++ typedText)) terminal st in
  effects st'
  = (effects st
     ++ [if JS.allWhiteSpace typedText then ClearCurrentLine
         else XtermWriteln EmptyString;
         if String.eqb terminal PROMPT then XtermWrite PROMPT
         else XtermWriteln (colorText terminal);
         XtermScrollToBottom])%list
  /\ command st' = command st.
Proof.
  intros Hne Hinc. cbv zeta. split.
  - rewrite newOutput_effects. now rewrite noCmd_prompt_line.
  - apply newOutput_frame.
Qed.

Lemma split_go_nonempty (sep : string) (k : nat) (cur s : string) :
  JS.split_go sep k cur s <> [].
Proof.
  revert k cur. induction s as [| c s IH]; intros k cur.
  - destruct k; discriminate.
  - destruct k; cbn [JS.split_go].
    + destruct (String.prefix sep (String c s)); [discriminate | apply IH].
    + apply IH.
Qed.

Lemma concat_cons (sep x : string) (l : list string) :
  l <> [] -> String.concat sep (x :: l) = x ++ sep ++ String.concat sep l.
Proof. destruct l; [congruence | reflexivity]. Qed.

Lemma prefix_drop (p s : string) :
  String.prefix p s = true -> s = p ++ JS.drop (String.length p) s.
Proof.
  revert s. induction p as [| a p IH]; intros s H; [reflexivity |].
  destruct s as [| b s]; simpl in H; [discriminate |].
  destruct (ascii_dec a b) as [-> | _]; [| discriminate].
  simpl. f_equal. apply IH, H.
Qed.

Lemma drop_length (n : nat) (s : string) :
  (String.length (JS.drop n s) <= String.length s)%nat.
Proof.
  revert s. induction n as [| n IH]; intros s; [simpl; lia |].
  destruct s as [| c s]; simpl; [lia |]. specialize (IH s). lia.
Qed.

Lemma split_go_concat (sep : string) (n : nat) :
  sep <> EmptyString ->
  forall s cur, (String.length s <= n)%nat ->
  String.concat sep (JS.split_go sep 0 cur s) = cur ++ s.
Proof.
  intros Hne. induction n as [| n IH]; intros s cur Hl.
  - destruct s; simpl in Hl; [| lia]. simpl. now rewrite append_empty_r.
  - destruct s as [| c s]; [simpl; now rewrite append_empty_r |].
    cbn [JS.split_go].
    destruct (String.prefix sep (String c s)) eqn:P.
    + apply prefix_drop in P.
      destruct sep as [| a sep]; [congruence |].
      cbn [String.length Nat.pred].
      simpl in P. injection P as -> Hs.
      pose proof (drop_length (String.length sep) s) as D.
      rewrite Hs at 1. rewrite split_go_skip.
      rewrite concat_cons by apply split_go_nonempty.
      rewrite IH by (simpl in Hl; lia).
      simpl. now rewrite <- Hs.
    + rewrite IH by (simpl in Hl; lia).
      now rewrite append_assoc.
Qed.

(** X19: [split] loses nothing: joining the pieces with the separator gives the
    string back, for every string and every separator. *)
Theorem split_then_join (s sep : string) :
  String.concat sep (JS.split s sep) = s.
Proof.
  unfold JS.split. destruct sep as [| a sep].
  - induction s as [| c s IH]; [reflexivity |].
    destruct s as [| c' s]; [reflexivity |].
    cbn [JS.units] in IH. cbn [JS.units].
    rewrite concat_cons by discriminate.
    now rewrite IH.
  - now rewrite (split_go_concat _ (String.length s)).
Qed.

Lemma trimStart_spec (s : string) :
  exists a, s = a ++ JS.trimStart s
            /\ JS.allWhiteSpace a = true
            /\ JS.startsBlank (JS.trimStart s) = false.
Proof.
  induction s as [| c s (a & E & Ha & Hs)].
  - exists EmptyString. repeat split.
  - simpl. destruct (JS.isWhiteSpace c) eqn:W.
    + exists (String c a). simpl. rewrite W, Ha. repeat split.
      * now f_equal.
      * exact Hs.
    + exists EmptyString. simpl. repeat split. exact W.
Qed.

Lemma trimEnd_spec (s : string) :
  exists b, s = JS.trimEnd s ++ b
            /\ JS.allWhiteSpace b = true
            /\ JS.endsBlank (JS.trimEnd s) = false.
Proof.
  induction s as [| c s (b & E & Hb & He)].
  - exists EmptyString. repeat split.
  - simpl. destruct (JS.trimEnd s) as [| a r] eqn:T.
    + simpl in E. subst b. destruct (JS.isWhiteSpace c) eqn:W.
      * exists (String c s). simpl. rewrite W, Hb. repeat split.
      * exists s. simpl. repeat split; assumption.
    + exists b. repeat split; [| exact Hb | exact He].
      simpl. simpl in E. now rewrite <- E.
Qed.

Lemma trimEnd_startsBlank (s : string) :
  JS.startsBlank s = false -> JS.startsBlank (JS.trimEnd s) = false.
Proof.
  destruct s as [| c s]; [reflexivity |]. simpl. intros W.
  destruct (JS.trimEnd s); [rewrite W |]; exact W.
Qed.

Lemma trimStart_fixed (s : string) :
  JS.startsBlank s = false -> JS.trimStart s = s.
Proof. destruct s as [| c s]; simpl; [reflexivity | now intros ->]. Qed.

Lemma trimEnd_fixed (s : string) :
  JS.endsBlank s = false -> JS.trimEnd s = s.
Proof.
  induction s as [| c s IH]; [reflexivity |].
  destruct s as [| a r].
  - simpl. now intros ->.
  - intros H. change (JS.endsBlank (String a r) = false) in H.
    specialize (IH H). cbn [JS.trimEnd] in IH. cbn [JS.trimEnd].
    now rewrite IH.
Qed.

(** X20: [trim] removes white space at both ends and nothing else: the string is
    its trimmed form between two runs of white space, the trimmed form
    neither starts nor ends with white space, and trimming again changes
    nothing. *)
Theorem trim_removes_outer_blanks (s : string) :
  (exists a b, s = a ++ JS.trim s ++ b
               /\ JS.allWhiteSpace a = true /\ JS.allWhiteSpace b = true)
  /\ JS.startsBlank (JS.trim s) = false
  /\ JS.endsBlank (JS.trim s) = false
  /\ JS.trim (JS.trim s) = JS.trim s.
Proof.
  unfold JS.trim.
  destruct (trimStart_spec s) as (a & Ea & Ha & Hs).
  destruct (trimEnd_spec (JS.trimStart s)) as (b & Eb & Hb & He).
  pose proof (trimEnd_startsBlank _ Hs) as Hs'.
  split; [| split; [exact Hs' | split; [exact He |]]].
  - exists a, b. split; [| split; assumption].
    now rewrite <- Eb.
  - rewrite (trimStart_fixed _ Hs'). apply trimEnd_fixed, He.
Qed.

End Terminal.

(** ** The component in the sample environment *)

Lemma C1_witness :
  Sample.MAX_HEIGHT <> 0
  /\ ~ invariant
        (toggleMaximize Sample.DEFAULT_HEIGHT Sample.MAX_HEIGHT
           (toggleClose Sample.DEFAULT_HEIGHT
              (initialState Sample.DEFAULT_HEIGHT))).
Proof.
  assert (H : Sample.MAX_HEIGHT <> 0) by (unfold Sample.MAX_HEIGHT; lia).
  split; [exact H |].
  destruct (C1_toggleMaximize_breaks_invariant
              Sample.DEFAULT_HEIGHT Sample.MAX_HEIGHT H)
    as (_ & _ & _ & _ & _ & Hn).
  exact Hn.
Defined.

(** C2, as stated, fails: the closed panel (height 0, reached from the
    initial state by [toggleClose]) dragged by 10 pixels ends at height 10,
    below [MIN_HEIGHT]. *)
Lemma C2_counterexample :
  ~ (Sample.MIN_HEIGHT
     <= height
          (handleResizeStop Sample.MAX_HEIGHT 10
             (toggleClose Sample.DEFAULT_HEIGHT
                (initialState Sample.DEFAULT_HEIGHT)))
     <= Sample.MAX_HEIGHT).
Proof. vm_compute. intros [H _]. apply H. reflexivity. Qed.

Lemma C2_witness :
  Sample.MIN_HEIGHT <= Sample.MAX_HEIGHT
  /\ height (handleResizeStop Sample.MAX_HEIGHT 400
               (Sample.state 200 false EmptyString))
     = Sample.MAX_HEIGHT.
Proof.
  assert (H : Sample.MIN_HEIGHT <= Sample.MAX_HEIGHT)
    by (unfold Sample.MIN_HEIGHT, Sample.MAX_HEIGHT; lia).
  split; [exact H |].
  destruct (C2_drag_resize_clamped_above
              Sample.MIN_HEIGHT Sample.MAX_HEIGHT 400
              (Sample.state 200 false EmptyString) H)
    as (_ & Hmax & _).
  apply Hmax. simpl. unfold Sample.MAX_HEIGHT. lia.
Defined.

Lemma C3_witness :
  domEvent_key Sample.enter = "Enter"
  /\ command
       (handleKey Sample.DEFAULT_HEIGHT Sample.MAX_HEIGHT Sample.PROMPT
          Sample.italic Sample.isCharValid Sample.parseCommand
          Sample.enter (Sample.state 200 false "foo"))
     = EmptyString.
Proof.
  split; [reflexivity |].
  destruct (C3_unrecognized_command
              Sample.DEFAULT_HEIGHT Sample.MAX_HEIGHT Sample.PROMPT
              Sample.italic Sample.isCharValid Sample.parseCommand
              Sample.enter (Sample.state 200 false "foo") eq_refl)
    as (H & _).
  exact H.
Defined.

Lemma C4_witness :
  command
    (runKeys Sample.DEFAULT_HEIGHT Sample.MAX_HEIGHT Sample.PROMPT
       Sample.italic Sample.isCharValid Sample.parseCommand
       ([Sample.press "l"; Sample.press "s"; Sample.press "x"]
        ++ [Sample.erase])
       (Sample.state 200 false EmptyString))
  = "ls".
Proof.
  assert (P : Forall (printableChar Sample.isCharValid)
                     [Sample.press "l"; Sample.press "s"; Sample.press "x"]).
  { repeat constructor; discriminate. }
  assert (B : Forall backspace [Sample.erase]).
  { repeat constructor. }
  destruct (C4_type_then_backspace
              Sample.DEFAULT_HEIGHT Sample.MAX_HEIGHT Sample.PROMPT
              Sample.italic Sample.isCharValid Sample.parseCommand
              [Sample.press "l"; Sample.press "s"; Sample.press "x"]
              [Sample.erase] (Sample.state 200 false EmptyString)
              eq_refl P B)
    as (_ & H & _).
  exact H.
Defined.

(** C6, as stated, fails at the open height [DEFAULT_HEIGHT]: two
    [toggleClose] from the initial state give back the original height. *)
Lemma C6_counterexample :
  height (initialState Sample.DEFAULT_HEIGHT) <> 0
  /\ height
       (toggleClose Sample.DEFAULT_HEIGHT
          (toggleClose Sample.DEFAULT_HEIGHT
             (initialState Sample.DEFAULT_HEIGHT)))
     = height (initialState Sample.DEFAULT_HEIGHT).
Proof. split; [discriminate | reflexivity]. Qed.

Lemma C6_witness :
  height (Sample.state 350 false EmptyString) <> 0
  /\ height
       (toggleClose Sample.DEFAULT_HEIGHT
          (toggleClose Sample.DEFAULT_HEIGHT
             (Sample.state 350 false EmptyString)))
     = Sample.DEFAULT_HEIGHT.
Proof.
  assert (H : height (Sample.state 350 false EmptyString) <> 0)
    by (simpl; lia).
  split; [exact H |].
  destruct (C6_toggleClose_twice Sample.DEFAULT_HEIGHT
              (Sample.state 350 false EmptyString) H)
    as (_ & H2 & _).
  exact H2.
Defined.

Lemma C7_witness :
  Sample.PROMPT <> EmptyString
  /\ noCmd Sample.PROMPT (Some "$ $ ls") = true.
Proof.
  assert (H : Sample.PROMPT <> EmptyString) by discriminate.
  split; [exact H |].
  destruct (C7_typed_prompt_line_is_cleared Sample.PROMPT Sample.colorText
              "done" (Sample.state 200 false "$ ls") H)
    as (_ & _ & Hn & _).
  exact Hn.
Defined.

Lemma C8_witness :
  domEvent_key Sample.enter = "Enter"
  /\ exists rest,
       effects
         (handleKey Sample.DEFAULT_HEIGHT Sample.MAX_HEIGHT Sample.PROMPT
            Sample.italic Sample.isCharValid Sample.parseCommand
            Sample.enter (Sample.state 200 false "help"))
       = XtermWriteln EmptyString :: ParseCommand "help" :: rest.
Proof.
  split; [reflexivity |].
  exact (C8_newline_before_dispatch
           Sample.DEFAULT_HEIGHT Sample.MAX_HEIGHT Sample.PROMPT
           Sample.italic Sample.isCharValid Sample.parseCommand
           Sample.enter (Sample.state 200 false "help") eq_refl).
Defined.

(** ** Runs in the sample environment *)

(** The session of the specification: drag by 400 from the default height,
    then [toggleMaximize], then [toggleClose] twice. *)
Example layout_session :
  let drag := handleResizeStop Sample.MAX_HEIGHT 400 in
  let maximize := toggleMaximize Sample.DEFAULT_HEIGHT Sample.MAX_HEIGHT in
  let close := toggleClose Sample.DEFAULT_HEIGHT in
  let s0 := initialState Sample.DEFAULT_HEIGHT in
  height (drag s0) = 500
  /\ height (maximize (drag s0)) = 200
  /\ height (close (maximize (drag s0))) = 0
  /\ height (close (close (maximize (drag s0)))) = 200.
Proof. repeat split. Qed.

Example submit_foo :
  let st :=
    runKeys Sample.DEFAULT_HEIGHT Sample.MAX_HEIGHT Sample.PROMPT
      Sample.italic Sample.isCharValid Sample.parseCommand
      [Sample.press "f"; Sample.press "o"; Sample.press "o"; Sample.enter]
      (initialState Sample.DEFAULT_HEIGHT) in
  command st = EmptyString
  /\ effects st
     = [XtermWrite "f"; XtermWrite "o"; XtermWrite "o";
        XtermWriteln EmptyString; ParseCommand "foo";
        XtermWrite ("Command '" ++ Sample.italic "foo" ++ "' not found."
                    ++ LF ++ LF ++ "$ ")%string].
Proof. split; reflexivity. Qed.

Example submit_empty :
  effects
    (handleKey Sample.DEFAULT_HEIGHT Sample.MAX_HEIGHT Sample.PROMPT
       Sample.italic Sample.isCharValid Sample.parseCommand
       Sample.enter (initialState Sample.DEFAULT_HEIGHT))
  = [XtermWriteln EmptyString; ParseCommand EmptyString; XtermWrite "$ "].
Proof. reflexivity. Qed.

Example paste_appends :
  command
    (handlePaste (Some " -la") (Sample.state 200 false "ls"))
  = "ls -la".
Proof. reflexivity. Qed.

Example form_feed_clears :
  handleKey Sample.DEFAULT_HEIGHT Sample.MAX_HEIGHT Sample.PROMPT
    Sample.italic Sample.isCharValid Sample.parseCommand
    (mkKeyEvent FF "l") (Sample.state 200 false "ls")
  = mkState 200 false false "ls" [XtermClear].
Proof. reflexivity. Qed.

Example ctrl_l_clears :
  handleKeybinds Sample.DEFAULT_HEIGHT Sample.MAX_HEIGHT Sample.toUpperCase
    (mkKeyboardEvent "l" true true) (Sample.state 200 false "ls")
  = mkState 200 false false "ls" [PreventDefault; XtermClear].
Proof. reflexivity. Qed.

Example output_keeps_typed_line :
  effects
    (newOutput Sample.PROMPT Sample.colorText true (Some "$ ls -la")
       "Build successful." (Sample.state 200 false "ls -la"))
  = [XtermWriteln EmptyString; XtermWriteln "Build successful.";
     XtermScrollToBottom].
Proof. reflexivity. Qed.

Example output_clears_blank_line :
  effects
    (newOutput Sample.PROMPT Sample.colorText true (Some "$ ")
       "$ " (Sample.state 200 false EmptyString))
  = [ClearCurrentLine; XtermWrite "$ "; XtermScrollToBottom].
Proof. reflexivity. Qed.

(** ** The further properties in the sample environment *)

Lemma toggleClose_alternates_witness :
  Sample.DEFAULT_HEIGHT <> 0
  /\ height
       (Nat.iter 3 (toggleClose Sample.DEFAULT_HEIGHT)
          (initialState Sample.DEFAULT_HEIGHT))
     = 0.
Proof.
  assert (H : Sample.DEFAULT_HEIGHT <> 0)
    by (unfold Sample.DEFAULT_HEIGHT; lia).
  split; [exact H |].
  destruct (toggleClose_alternates Sample.DEFAULT_HEIGHT 3 H) as (Hh & _).
  exact Hh.
Defined.

Lemma toggleMaximize_twice_witness :
  Sample.DEFAULT_HEIGHT <> Sample.MAX_HEIGHT
  /\ height
       (toggleMaximize Sample.DEFAULT_HEIGHT Sample.MAX_HEIGHT
          (toggleMaximize Sample.DEFAULT_HEIGHT Sample.MAX_HEIGHT
             (Sample.state 350 false EmptyString)))
     = Sample.DEFAULT_HEIGHT.
Proof.
  assert (H : Sample.DEFAULT_HEIGHT <> Sample.MAX_HEIGHT)
    by (unfold Sample.DEFAULT_HEIGHT, Sample.MAX_HEIGHT; lia).
  split; [exact H |].
  destruct (toggleMaximize_twice Sample.DEFAULT_HEIGHT Sample.MAX_HEIGHT
              (Sample.state 350 false EmptyString) H) as (Hh & _).
  exact Hh.
Defined.

Lemma typing_in_lockstep_witness :
  effects
    (runKeys Sample.DEFAULT_HEIGHT Sample.MAX_HEIGHT Sample.PROMPT
       Sample.italic Sample.isCharValid Sample.parseCommand
       [Sample.press "l"; Sample.press "s"]
       (Sample.state 200 false EmptyString))
  = [XtermWrite "l"; XtermWrite "s"].
Proof.
  assert (P : Forall (printableChar Sample.isCharValid)
                     [Sample.press "l"; Sample.press "s"]).
  { repeat constructor; discriminate. }
  destruct (typing_in_lockstep
              Sample.DEFAULT_HEIGHT Sample.MAX_HEIGHT Sample.PROMPT
              Sample.italic Sample.isCharValid Sample.parseCommand
              [Sample.press "l"; Sample.press "s"]
              (Sample.state 200 false EmptyString) P)
    as (H & _).
  exact H.
Defined.

Lemma type_erase_round_trip_witness :
  command
    (runKeys Sample.DEFAULT_HEIGHT Sample.MAX_HEIGHT Sample.PROMPT
       Sample.italic Sample.isCharValid Sample.parseCommand
       ([Sample.press "x"; Sample.press "y"] ++ [Sample.erase; Sample.erase])
       (Sample.state 200 false "cd"))
  = "cd".
Proof.
  assert (P : Forall (printableChar Sample.isCharValid)
                     [Sample.press "x"; Sample.press "y"]).
  { repeat constructor; discriminate. }
  assert (B : Forall backspace [Sample.erase; Sample.erase]).
  { repeat constructor. }
  exact (type_erase_round_trip
           Sample.DEFAULT_HEIGHT Sample.MAX_HEIGHT Sample.PROMPT
           Sample.italic Sample.isCharValid Sample.parseCommand
           [Sample.press "x"; Sample.press "y"] [Sample.erase; Sample.erase]
           (Sample.state 200 false "cd") P B eq_refl).
Defined.

Lemma backspace_always_reaches_emulator_witness :
  effects
    (runKeys Sample.DEFAULT_HEIGHT Sample.MAX_HEIGHT Sample.PROMPT
       Sample.italic Sample.isCharValid Sample.parseCommand
       [Sample.erase; Sample.erase] (Sample.state 200 false EmptyString))
  = [RemoveLastChar; RemoveLastChar].
Proof.
  assert (B : Forall backspace [Sample.erase; Sample.erase]).
  { repeat constructor. }
  destruct (backspace_always_reaches_emulator
              Sample.DEFAULT_HEIGHT Sample.MAX_HEIGHT Sample.PROMPT
              Sample.italic Sample.isCharValid Sample.parseCommand
              [Sample.erase; Sample.erase]
              (Sample.state 200 false EmptyString) B)
    as (H & _).
  exact H.
Defined.

Lemma buffer_restarts_at_enter_witness :
  command
    (runKeys Sample.DEFAULT_HEIGHT Sample.MAX_HEIGHT Sample.PROMPT
       Sample.italic Sample.isCharValid Sample.parseCommand
       ([Sample.press "x"; Sample.erase; Sample.press "y"]
        ++ Sample.enter :: [Sample.press "l"; Sample.press "s"])
       (Sample.state 200 false "cd"))
  = "ls".
Proof.
  assert (P : Forall (printableChar Sample.isCharValid)
                     [Sample.press "l"; Sample.press "s"]).
  { repeat constructor; discriminate. }
  exact (buffer_restarts_at_enter
           Sample.DEFAULT_HEIGHT Sample.MAX_HEIGHT Sample.PROMPT
           Sample.italic Sample.isCharValid Sample.parseCommand
           [Sample.press "x"; Sample.erase; Sample.press "y"] Sample.enter
           [Sample.press "l"; Sample.press "s"]
           (Sample.state 200 false "cd") eq_refl P).
Defined.

Lemma blank_command_not_found_witness :
  effects
    (handleKey Sample.DEFAULT_HEIGHT Sample.MAX_HEIGHT Sample.PROMPT
       Sample.italic Sample.isCharValid Sample.parseCommand
       Sample.enter (Sample.state 200 false "  "))
  = [XtermWriteln EmptyString; ParseCommand "  ";
     XtermWrite ("Command '" ++ Sample.italic EmptyString ++ "' not found."
                 ++ LF ++ LF ++ Sample.PROMPT)%string].
Proof.
  assert (N : command (Sample.state 200 false "  ") <> EmptyString)
    by discriminate.
  exact (blank_command_not_found
           Sample.DEFAULT_HEIGHT Sample.MAX_HEIGHT Sample.PROMPT
           Sample.italic Sample.isCharValid Sample.parseCommand
           Sample.enter (Sample.state 200 false "  ")
           eq_refl eq_refl N eq_refl).
Defined.

Lemma recognized_command_writes_nothing_witness :
  handleKey Sample.DEFAULT_HEIGHT Sample.MAX_HEIGHT Sample.PROMPT
    Sample.italic Sample.isCharValid Sample.parseCommand
    Sample.enter (Sample.state 200 false "help")
  = mkState 200 false false EmptyString
            [XtermWriteln EmptyString; ParseCommand "help"].
Proof.
  exact (recognized_command_writes_nothing
           Sample.DEFAULT_HEIGHT Sample.MAX_HEIGHT Sample.PROMPT
           Sample.italic Sample.isCharValid Sample.parseCommand
           Sample.enter (Sample.state 200 false "help") eq_refl eq_refl).
Defined.

Lemma typed_line_is_dispatched_witness :
  exists rest,
    effects
      (runKeys Sample.DEFAULT_HEIGHT Sample.MAX_HEIGHT Sample.PROMPT
         Sample.italic Sample.isCharValid Sample.parseCommand
         ([Sample.press "l"; Sample.press "s"] ++ [Sample.enter])
         (Sample.state 200 false EmptyString))
    = ([XtermWrite "l"; XtermWrite "s"; XtermWriteln EmptyString;
        ParseCommand "ls"] ++ rest)%list.
Proof.
  assert (P : Forall (printableChar Sample.isCharValid)
                     [Sample.press "l"; Sample.press "s"]).
  { repeat constructor; discriminate. }
  exact (typed_line_is_dispatched
           Sample.DEFAULT_HEIGHT Sample.MAX_HEIGHT Sample.PROMPT
           Sample.italic Sample.isCharValid Sample.parseCommand
           [Sample.press "l"; Sample.press "s"] Sample.enter
           (Sample.state 200 false EmptyString) eq_refl P eq_refl).
Defined.

Lemma paste_erase_round_trip_witness :
  command
    (runKeys Sample.DEFAULT_HEIGHT Sample.MAX_HEIGHT Sample.PROMPT
       Sample.italic Sample.isCharValid Sample.parseCommand
       [Sample.erase; Sample.erase]
       (handlePaste (Some "-l") (Sample.state 200 false "ls ")))
  = "ls ".
Proof.
  assert (B : Forall backspace [Sample.erase; Sample.erase]).
  { repeat constructor. }
  exact (paste_erase_round_trip
           Sample.DEFAULT_HEIGHT Sample.MAX_HEIGHT Sample.PROMPT
           Sample.italic Sample.isCharValid Sample.parseCommand
           "-l" [Sample.erase; Sample.erase]
           (Sample.state 200 false "ls ") B eq_refl).
Defined.

Lemma paste_waits_for_enter_witness :
  exists rest,
    effects
      (handleKey Sample.DEFAULT_HEIGHT Sample.MAX_HEIGHT Sample.PROMPT
         Sample.italic Sample.isCharValid Sample.parseCommand
         Sample.enter
         (handlePaste (Some ("help" ++ LF)%string)
                      (Sample.state 200 false EmptyString)))
    = ([XtermWrite ("help" ++ LF)%string; XtermWriteln EmptyString;
        ParseCommand ("help" ++ LF)%string] ++ rest)%list.
Proof.
  destruct (paste_waits_for_enter
              Sample.DEFAULT_HEIGHT Sample.MAX_HEIGHT Sample.PROMPT
              Sample.italic Sample.isCharValid Sample.parseCommand
              ("help" ++ LF)%string Sample.enter
              (Sample.state 200 false EmptyString) eq_refl)
    as (_ & rest & H).
  exists rest. exact H.
Defined.

Lemma height_never_exceeds_MAX_witness :
  height
    (runEvents Sample.DEFAULT_HEIGHT Sample.MAX_HEIGHT Sample.PROMPT
       Sample.italic Sample.colorText Sample.isCharValid Sample.parseCommand
       Sample.toUpperCase
       [OnResizeStop 1000; ClickClose; OnKey (mkKeyEvent CR "m");
        OnResizeStop 700]
       (initialState Sample.DEFAULT_HEIGHT))
  <= Sample.MAX_HEIGHT.
Proof.
  assert (Hd : Sample.DEFAULT_HEIGHT <= Sample.MAX_HEIGHT)
    by (unfold Sample.DEFAULT_HEIGHT, Sample.MAX_HEIGHT; lia).
  assert (H0 : 0 <= Sample.MAX_HEIGHT)
    by (unfold Sample.MAX_HEIGHT; lia).
  exact (height_never_exceeds_MAX
           Sample.DEFAULT_HEIGHT Sample.MAX_HEIGHT Sample.PROMPT
           Sample.italic Sample.colorText Sample.isCharValid
           Sample.parseCommand Sample.toUpperCase
           [OnResizeStop 1000; ClickClose; OnKey (mkKeyEvent CR "m");
            OnResizeStop 700]
           Hd H0).
Defined.

Lemma buffer_keys_keep_layout_witness :
  layout
    (runKeys Sample.DEFAULT_HEIGHT Sample.MAX_HEIGHT Sample.PROMPT
       Sample.italic Sample.isCharValid Sample.parseCommand
       [Sample.press "l"; Sample.erase; Sample.enter]
       (Sample.state 350 false EmptyString))
  = (350, false, false).
Proof.
  assert (K : Forall (bufferKey Sample.isCharValid)
                     [Sample.press "l"; Sample.erase; Sample.enter]).
  { constructor; [right; right; reflexivity |].
    constructor; [right; left; reflexivity |].
    constructor; [left; reflexivity | constructor]. }
  exact (buffer_keys_keep_layout
           Sample.DEFAULT_HEIGHT Sample.MAX_HEIGHT Sample.PROMPT
           Sample.italic Sample.isCharValid Sample.parseCommand
           [Sample.press "l"; Sample.erase; Sample.enter]
           (Sample.state 350 false EmptyString) K).
Defined.

Lemma line_without_prompt_is_cleared_witness :
  noCmd Sample.PROMPT (Some "Build successful.") = true.
Proof.
  assert (H : Sample.PROMPT <> EmptyString) by discriminate.
  destruct (line_without_prompt_is_cleared Sample.PROMPT Sample.colorText
              "Build successful." "Deploying..."
              (Sample.state 200 false EmptyString) H eq_refl)
    as (Hn & _).
  exact Hn.
Defined.

Lemma output_after_prompt_line_witness :
  effects
    (newOutput Sample.PROMPT Sample.colorText true (Some "$ ls -la")
       "Build successful." (Sample.state 200 false "ls -la"))
  = [XtermWriteln EmptyString; XtermWriteln "Build successful.";
     XtermScrollToBottom].
Proof.
  assert (H : Sample.PROMPT <> EmptyString) by discriminate.
  destruct (output_after_prompt_line Sample.PROMPT Sample.colorText
              "ls -la" "Build successful."
              (Sample.state 200 false "ls -la") H eq_refl)
    as (He & _).
  exact He.
Defined.
